(** * shared_models.database: connection layer of the meeting backend

    A shallow embedding of [libs/shared-models/shared_models/database.py]
    and the properties its specification states about it.

    The module is glue over SQLAlchemy and PostgreSQL.  The embedding keeps
    the two sides apart:

    - the code of the module is written in a small state-and-exception
      monad [M]; every call into SQLAlchemy is an explicit request
      ([call]) answered by a handler, and the requests and their answers
      are recorded in the [history] of the world;
    - the library and the server are a parameter of the code (any handler,
      so any failure at any call), and [Postgres.pg_lib] is a reference
      model of them for the properties that speak about database content.
*)

From stdpp Require Import gmap strings list fin_maps.
From Stdlib Require Import Ascii String ZArith Lia.

Open Scope string_scope.

(** ** Python values the module manipulates *)

(** [str.join]: [sep.join(l)]. *)
Fixpoint join (sep : string) (l : list string) : string :=
  match l with
  | [] => ""
  | x :: r =>
      match r with
      | [] => x
      | _ :: _ => x +:+ sep +:+ join sep r
      end
  end.

(** [str.upper], on the bytes of the string: the letters [a]..[z] are
    mapped to [A]..[Z] and every other byte is kept.  On ASCII text this is
    Python's [upper]; no character outside ASCII has one of the letters of
    ["DEBUG"] as its upper case, so the comparison made with the result is
    the one Python makes. *)
Definition ascii_upper (c : ascii) : ascii :=
  let n := nat_of_ascii c in
  if (97 <=? n)%nat && (n <=? 122)%nat then ascii_of_nat (n - 32) else c.

Fixpoint upper (s : string) : string :=
  match s with
  | EmptyString => EmptyString
  | String c r => String (ascii_upper c) (upper r)
  end.

(** Truth value of an [Optional[str]]: [None] and [""] are falsy. *)
Definition truthy (v : option string) : bool :=
  match v with
  | None => false
  | Some s => negb (String.eqb s "")
  end.

(** [all(iterable)] *)
Definition all (l : list bool) : bool := forallb id l.

(** What an f-string prints for an [Optional[str]] field: [str(None)] is
    ["None"]. *)
Definition fmt (v : option string) : string :=
  match v with
  | None => "None"
  | Some s => s
  end.

(** Exceptions.  [except Exception] catches every exception but the ones
    that derive from [BaseException] only ([KeyboardInterrupt],
    [SystemExit], [GeneratorExit], [asyncio.CancelledError]). *)
Inductive exn : Type :=
| ValueError (msg : string)
| Error (cls msg : string)        (* any other subclass of Exception *)
| BaseOnly (cls : string).        (* BaseException, not Exception *)

Definition isinstance_Exception (e : exn) : bool :=
  match e with
  | BaseOnly _ => false
  | _ => true
  end.

(** [str(e)] *)
Definition str_exn (e : exn) : string :=
  match e with
  | ValueError msg => msg
  | Error _ msg => msg
  | BaseOnly _ => ""
  end.

Definition GeneratorExit : exn := BaseOnly "GeneratorExit".

Inductive outcome (A : Type) : Type :=
| Return (a : A)
| Raised (e : exn).
Arguments Return {A} a.
Arguments Raised {A} e.

(** ** Database configuration (lines 14-37) *)

(** The five module globals read with [os.environ.get]. *)
Record settings : Type := Settings {
  DB_HOST : option string;
  DB_PORT : option string;
  DB_NAME : option string;
  DB_USER : option string;
  DB_PASSWORD : option string
}.

Definition read_settings (environ : gmap string string) : settings :=
  {| DB_HOST := environ !! "DB_HOST";
     DB_PORT := environ !! "DB_PORT";
     DB_NAME := environ !! "DB_NAME";
     DB_USER := environ !! "DB_USER";
     DB_PASSWORD := environ !! "DB_PASSWORD" |}.

(** The dict literal of lines 25-31, in insertion order. *)
Definition settings_items (c : settings) : list (string * option string) :=
  [ ("DB_HOST", DB_HOST c);
    ("DB_PORT", DB_PORT c);
    ("DB_NAME", DB_NAME c);
    ("DB_USER", DB_USER c);
    ("DB_PASSWORD", DB_PASSWORD c) ].

Definition missing_vars (c : settings) : list string :=
  map fst (filter (fun item => negb (truthy (snd item))) (settings_items c)).

(** Lines 22-34. *)
Definition validate (c : settings) : outcome unit :=
  if negb (all (map truthy
                  [DB_HOST c; DB_PORT c; DB_NAME c; DB_USER c; DB_PASSWORD c]))
  then Raised (ValueError ("Missing required database environment variables: "
                           +:+ join ", " (missing_vars c)))
  else Return tt.

Definition DATABASE_URL (c : settings) : string :=
  "postgresql+asyncpg://" +:+ fmt (DB_USER c) +:+ ":" +:+ fmt (DB_PASSWORD c)
  +:+ "@" +:+ fmt (DB_HOST c) +:+ ":" +:+ fmt (DB_PORT c) +:+ "/" +:+ fmt (DB_NAME c).

Definition DATABASE_URL_SYNC (c : settings) : string :=
  "postgresql://" +:+ fmt (DB_USER c) +:+ ":" +:+ fmt (DB_PASSWORD c)
  +:+ "@" +:+ fmt (DB_HOST c) +:+ ":" +:+ fmt (DB_PORT c) +:+ "/" +:+ fmt (DB_NAME c).

(** The [echo] argument of line 69. *)
Definition echo (environ : gmap string string) : bool :=
  String.eqb (upper (default "INFO" (environ !! "LOG_LEVEL"))) "DEBUG".

(** ** Requests to SQLAlchemy *)

Definition handle : Type := nat.
Definition row : Type := list Z.

(** One constructor per library entry point the module (or the block that
    consumes a session) calls, indexed by the type of the answer.  The
    [__enter__] of a connection and the [__aenter__] of a session return
    the object and do nothing else, so [Engine_connect] and
    [sessionmaker_call] stand for the creation together with the entry of
    the [with] block; the exits are requests of their own and carry the
    exception in flight.  They answer [None]: no SQLAlchemy context manager
    suppresses an exception. *)
Inductive call : Type -> Type :=
| create_engine (url : string) (isolation_level : option string) : call handle
| create_async_engine (url : string) (echo_ : bool) (pool_size max_overflow : nat) : call handle
| sessionmaker (bind : handle) (expire_on_commit : bool) : call handle
| Engine_connect (engine_ : handle) : call handle
| Connection_execute (conn : handle) (text : string)
    (params : list (string * option string)) : call (list row)
| Connection_exit (conn : handle) (exc : option exn) : call unit
| AsyncEngine_begin (engine_ : handle) : call handle
| AsyncConnection_execute (conn : handle) (text : string) : call unit
| AsyncConnection_run_sync_create_all (conn : handle) (metadata : list string)
    (checkfirst : option bool) : call unit
| AsyncEngine_begin_exit (conn : handle) (exc : option exn) : call unit
| sessionmaker_call (factory : handle) : call handle
| AsyncSession_execute (session : handle) (text : string) : call (list row)
| AsyncSession_close (session : handle) : call unit
| AsyncSession_aexit (session : handle) (exc : option exn) : call unit.

(** A request together with its answer. *)
Inductive entry : Type :=
| Entry {X : Type} (c : call X) (r : exn + X).

Definition failure (en : entry) : option exn :=
  match en with
  | Entry _ (inl e) => Some e
  | Entry _ (inr _) => None
  end.

(** [Result.scalar()]: first column of the first row, or [None]. *)
Definition scalar (rows : list row) : option Z :=
  match rows with
  | [] => None
  | r :: _ => head r
  end.

(** Truth value of what [scalar()] returned. *)
Definition truthy_scalar (v : option Z) : bool :=
  match v with
  | None => false
  | Some z => negb (Z.eqb z 0)
  end.

(** ** Logging *)

Inductive level : Type := DEBUG | INFO | WARNING | ERROR.

Record log_record : Type := LogRecord {
  levelname : level;
  message : string;
  exc_info : option exn
}.

(** ** The module, over any library *)

Record module_globals : Type := Globals {
  config : settings;
  engine : handle;
  async_session_local : handle;
  sync_engine : handle
}.

Section Program.

Context {S : Type}.

(** The library and the server behind it: an answer and a new state for
    every request. *)
Variable lib : forall X : Type, call X -> S -> (exn + X) * S.

(** [Base.metadata], from [shared_models.models]: the names of the
    tables the models define. *)
Variable Base_metadata : list string.

Record world : Type := World {
  environ : gmap string string;
  log : list log_record;
  history : list entry;
  ext : S
}.

Definition M (A : Type) : Type := world -> outcome A * world.

Definition ret {A} (a : A) : M A := fun w => (Return a, w).

Definition raise {A} (e : exn) : M A := fun w => (Raised e, w).

Definition bind {A B} (m : M A) (k : A -> M B) : M B :=
  fun w =>
    match m w with
    | (Return a, w') => k a w'
    | (Raised e, w') => (Raised e, w')
    end.

Definition lift {A} (o : outcome A) : M A := fun w => (o, w).

Definition os_environ : M (gmap string string) :=
  fun w => (Return (environ w), w).

Definition emit (l : level) (msg : string) (exc : option exn) : M unit :=
  fun w =>
    (Return tt,
     {| environ := environ w;
        log := log w ++ [LogRecord l msg exc];
        history := history w;
        ext := ext w |}).

(** Call the library, record the request and its answer, raise what the
    library raised. *)
Definition perform {X} (c : call X) : M X :=
  fun w =>
    let (r, s) := lib X c (ext w) in
    let w' := {| environ := environ w;
                 log := log w;
                 history := history w ++ [Entry c r];
                 ext := s |} in
    match r with
    | inl e => (Raised e, w')
    | inr x => (Return x, w')
    end.

(** [try: body / except Exception as e: handler e] *)
Definition try_except {A} (body : M A) (handler : exn -> M A) : M A :=
  fun w =>
    match body w with
    | (Return a, w') => (Return a, w')
    | (Raised e, w') =>
        if isinstance_Exception e then handler e w' else (Raised e, w')
    end.

(** [try: body / finally: fin]: an exception of [fin] replaces the
    outcome of [body]. *)
Definition try_finally {A} (body : M A) (fin : M unit) : M A :=
  fun w =>
    let (o, w1) := body w in
    match fin w1 with
    | (Return _, w2) => (o, w2)
    | (Raised e, w2) => (Raised e, w2)
    end.

Definition exc_of {A} (o : outcome A) : option exn :=
  match o with
  | Return _ => None
  | Raised e => Some e
  end.

(** [with enter as x: body x], for a context manager whose exit returns
    [None]: the exit runs on every outcome of the body and is told the
    exception in flight; an exception of the exit replaces it. *)
Definition with_ {A B} (enter : M A) (exit : A -> option exn -> M unit)
    (body : A -> M B) : M B :=
  fun w =>
    match enter w with
    | (Raised e, w1) => (Raised e, w1)
    | (Return x, w1) =>
        let (o, w2) := body x w1 in
        match exit x (exc_of o) w2 with
        | (Return _, w3) => (o, w3)
        | (Raised e, w3) => (Raised e, w3)
        end
    end.

Declare Scope py_scope.
Delimit Scope py_scope with py.
Notation "'let*' x ':=' m 'in' k" := (bind m (fun x => k))
  (at level 10, x name, m at level 100, k at level 200) : py_scope.
Notation "m ;; k" := (bind m (fun _ => k))
  (at level 100, k at level 200, right associativity) : py_scope.
Local Open Scope py_scope.

(** *** [_ensure_database_exists] (lines 39-61) *)

Definition select_datname : string :=
  "SELECT 1 FROM pg_database WHERE datname=:name".

Definition admin_url (c : settings) : string :=
  "postgresql://" +:+ fmt (DB_USER c) +:+ ":" +:+ fmt (DB_PASSWORD c)
  +:+ "@" +:+ fmt (DB_HOST c) +:+ ":" +:+ fmt (DB_PORT c) +:+ "/postgres".

Definition create_database (c : settings) : string :=
  "CREATE DATABASE " +:+ fmt (DB_NAME c).

(** The body of the [try] (lines 51-59). *)
Definition check_and_create (c : settings) : M unit :=
  let* admin_engine := perform (create_engine (admin_url c) (Some "AUTOCOMMIT")) in
  with_ (perform (Engine_connect admin_engine))
        (fun conn exc => perform (Connection_exit conn exc))
        (fun conn =>
           let* rows := perform (Connection_execute conn select_datname
                                   [("name", DB_NAME c)]) in
           let exists_ := scalar rows in
           if negb (truthy_scalar exists_) then
             emit WARNING ("Database '" +:+ fmt (DB_NAME c)
                           +:+ "' not found. Creating it now...") None ;;
             perform (Connection_execute conn (create_database c) []) ;;
             emit INFO ("Database '" +:+ fmt (DB_NAME c) +:+ "' created.") None
           else
             emit DEBUG ("Database '" +:+ fmt (DB_NAME c)
                         +:+ "' already exists.") None).

Definition _ensure_database_exists (c : settings) : M unit :=
  let* env := os_environ in
  if negb (String.eqb (default "1" (env !! "DB_AUTO_CREATE")) "1") then
    emit INFO "DB_AUTO_CREATE disabled; skipping database existence check." None
  else
    try_except (check_and_create c)
      (fun e =>
         emit ERROR ("Database auto-create check failed (continuing anyway): "
                     +:+ str_exn e) (Some e)).

(** *** Engines and session factory (lines 67-80) *)

Definition make_engine (c : settings) : M handle :=
  let* env := os_environ in
  perform (create_async_engine (DATABASE_URL c) (echo env) 10 20).

(** Lines 39-80: what the module runs once the configuration is
    accepted. *)
Definition module_setup (c : settings) : M module_globals :=
  _ensure_database_exists c ;;
  let* engine_ := make_engine c in
  let* async_session_local_ := perform (sessionmaker engine_ false) in
  let* sync_engine_ := perform (create_engine (DATABASE_URL_SYNC c) None) in
  ret (Globals c engine_ async_session_local_ sync_engine_).

(** The module body: what [import shared_models.database] runs. *)
Definition module_body : M module_globals :=
  let* env := os_environ in
  let c := read_settings env in
  lift (validate c) ;;
  module_setup c.

(** *** [get_db] (lines 83-90)

    An async generator with one [yield].  [consumer session] is the code
    that runs while the generator is suspended at the [yield]; its
    outcome is the way the generator is resumed: [Return] when it is
    asked for its next item, [Raised e] when [e] is thrown into it
    ([athrow]), [Raised GeneratorExit] when it is closed early
    ([aclose]). *)
Definition get_db {A} (g : module_globals) (consumer : handle -> M A) : M A :=
  with_ (perform (sessionmaker_call (async_session_local g)))
        (fun session exc => perform (AsyncSession_aexit session exc))
        (fun session =>
           try_finally (consumer session)
                       (perform (AsyncSession_close session))).

(** *** [init_db] (lines 93-105) *)

Definition init_db (g : module_globals) : M unit :=
  let c := config g in
  emit INFO ("Initializing database tables at " +:+ fmt (DB_HOST c) +:+ ":"
             +:+ fmt (DB_PORT c) +:+ "/" +:+ fmt (DB_NAME c)) None ;;
  try_except
    (with_ (perform (AsyncEngine_begin (engine g)))
           (fun conn exc => perform (AsyncEngine_begin_exit conn exc))
           (fun conn =>
              perform (AsyncConnection_run_sync_create_all conn Base_metadata
                         (Some true))) ;;
     emit INFO "Database tables checked/created successfully." None)
    (fun e =>
       emit ERROR ("Error initializing database tables: " +:+ str_exn e) (Some e) ;;
       raise e).

(** *** [recreate_db] (lines 108-133) *)

Definition drop_schema : string := "DROP SCHEMA public CASCADE;".
Definition create_schema : string := "CREATE SCHEMA public;".

Definition recreate_db (g : module_globals) : M unit :=
  let c := config g in
  emit WARNING ("!!! DANGEROUS OPERATION: Dropping and recreating all tables in "
                +:+ fmt (DB_NAME c) +:+ " at " +:+ fmt (DB_HOST c) +:+ ":"
                +:+ fmt (DB_PORT c) +:+ " !!!") None ;;
  try_except
    (with_ (perform (AsyncEngine_begin (engine g)))
           (fun conn exc => perform (AsyncEngine_begin_exit conn exc))
           (fun conn =>
              emit WARNING "Dropping public schema with CASCADE..." None ;;
              perform (AsyncConnection_execute conn drop_schema) ;;
              emit WARNING "Public schema dropped." None ;;
              emit INFO "Recreating public schema..." None ;;
              perform (AsyncConnection_execute conn create_schema) ;;
              emit INFO "Public schema recreated." None ;;
              emit INFO "Recreating all tables based on models..." None ;;
              perform (AsyncConnection_run_sync_create_all conn Base_metadata None) ;;
              emit INFO "All tables recreated successfully." None) ;;
     emit WARNING ("!!! DANGEROUS OPERATION COMPLETE for " +:+ fmt (DB_NAME c)
                   +:+ " at " +:+ fmt (DB_HOST c) +:+ ":" +:+ fmt (DB_PORT c)
                   +:+ " !!!") None)
    (fun e =>
       emit ERROR ("Error recreating database tables: " +:+ str_exn e) (Some e) ;;
       raise e).

End Program.

Arguments world S : clear implicits.
Arguments M S A : clear implicits.

(** ** Reference model of the library and the server

    What SQLAlchemy and PostgreSQL do with the requests of this module when
    nothing fails outside of the statements themselves: a cluster with its
    catalog of database names, the target database as schemas of tables of
    rows, transactional DDL on a working copy, and a pool whose
    connections are held by the sessions that used them. *)
Module Postgres.

Record pg : Type := Pg {
  databases : gset string;
  schemas : gmap string (gmap string (list row));
  transactions : gmap handle (gmap string (gmap string (list row)));
  in_use : gset handle;
  next_handle : handle
}.

Definition fresh (s : pg) : (exn + handle) * pg :=
  (inr (next_handle s),
   Pg (databases s) (schemas s) (transactions s) (in_use s) (Datatypes.S (next_handle s))).

Definition set_databases (d : gset string) (s : pg) : pg :=
  Pg d (schemas s) (transactions s) (in_use s) (next_handle s).

Definition set_schemas (d : gmap string (gmap string (list row))) (s : pg) : pg :=
  Pg (databases s) d (transactions s) (in_use s) (next_handle s).

Definition set_transactions
    (t : gmap handle (gmap string (gmap string (list row)))) (s : pg) : pg :=
  Pg (databases s) (schemas s) t (in_use s) (next_handle s).

Definition set_in_use (u : gset handle) (s : pg) : pg :=
  Pg (databases s) (schemas s) (transactions s) u (next_handle s).

Definition ProgrammingError (msg : string) : exn := Error "ProgrammingError" msg.

(** Unquoted identifiers: a letter or [_], then letters, digits, [_] or
    [$]; the server folds them to lower case. *)
Definition is_letter (c : ascii) : bool :=
  let n := nat_of_ascii c in
  ((65 <=? n)%nat && (n <=? 90)%nat) || ((97 <=? n)%nat && (n <=? 122)%nat)
  || (n =? 95)%nat.

Definition is_ident_char (c : ascii) : bool :=
  let n := nat_of_ascii c in
  is_letter c || ((48 <=? n)%nat && (n <=? 57)%nat) || (n =? 36)%nat.

Fixpoint forall_chars (p : ascii -> bool) (s : string) : bool :=
  match s with
  | EmptyString => true
  | String c r => p c && forall_chars p r
  end.

Definition is_identifier (s : string) : bool :=
  match s with
  | EmptyString => false
  | String c r => is_letter c && forall_chars is_ident_char r
  end.

Definition ascii_lower (c : ascii) : ascii :=
  let n := nat_of_ascii c in
  if (65 <=? n)%nat && (n <=? 90)%nat then ascii_of_nat (n + 32) else c.

Fixpoint lower (s : string) : string :=
  match s with
  | EmptyString => EmptyString
  | String c r => String (ascii_lower c) (lower r)
  end.

Fixpoint strip_prefix (p s : string) : option string :=
  match p, s with
  | EmptyString, _ => Some s
  | String a p', String b s' => if Ascii.eqb a b then strip_prefix p' s' else None
  | String _ _, EmptyString => None
  end.

(** Statements on the maintenance database. *)
Definition admin_execute (text : string) (params : list (string * option string))
    (s : pg) : (exn + list row) * pg :=
  if String.eqb text select_datname then
    match params with
    | [(k, v)] =>
        if String.eqb k "name" then
          match v with
          | Some n => (inr (if decide (n ∈ databases s) then [[1%Z]] else []), s)
          | None => (inr [], s)
          end
        else (inl (Error "StatementError" "a value is required for bind parameter 'name'"), s)
    | _ => (inl (Error "StatementError" "a value is required for bind parameter 'name'"), s)
    end
  else
    match strip_prefix "CREATE DATABASE " text with
    | Some tail =>
        if is_identifier tail then
          if decide (lower tail ∈ databases s)
          then (inl (ProgrammingError "database already exists"), s)
          else (inr [], set_databases ({[lower tail]} ∪ databases s) s)
        else (inl (ProgrammingError "syntax error"), s)
    | None => (inl (ProgrammingError "syntax error"), s)
    end.

(** [CREATE TABLE t], after the existence check when [checkfirst]. *)
Definition create_table (checkfirst : bool) (t : string)
    (db : gmap string (gmap string (list row)))
    : exn + gmap string (gmap string (list row)) :=
  match db !! "public" with
  | None => inl (ProgrammingError "no schema has been selected to create in")
  | Some tables =>
      match tables !! t with
      | Some _ =>
          if checkfirst then inr db
          else inl (ProgrammingError "relation already exists")
      | None => inr (<["public" := <[t := []]> tables]> db)
      end
  end.

(** [MetaData.create_all]: the tables in turn, stopping at the first
    error. *)
Fixpoint create_all (checkfirst : bool) (metadata : list string)
    (db : gmap string (gmap string (list row)))
    : exn + gmap string (gmap string (list row)) :=
  match metadata with
  | [] => inr db
  | t :: rest =>
      match create_table checkfirst t db with
      | inl e => inl e
      | inr db' => create_all checkfirst rest db'
      end
  end.

(** Statements inside a transaction of the target database. *)
Definition ddl (text : string) (db : gmap string (gmap string (list row)))
    : exn + gmap string (gmap string (list row)) :=
  if String.eqb text drop_schema then
    match db !! "public" with
    | Some _ => inr (delete "public" db)
    | None => inl (ProgrammingError "schema does not exist")
    end
  else if String.eqb text create_schema then
    match db !! "public" with
    | Some _ => inl (ProgrammingError "schema already exists")
    | None => inr (<["public" := ∅]> db)
    end
  else inl (ProgrammingError "syntax error").

Definition in_transaction (conn : handle)
    (f : gmap string (gmap string (list row)) -> exn + gmap string (gmap string (list row)))
    (s : pg) : (exn + unit) * pg :=
  match transactions s !! conn with
  | None => (inl (Error "ResourceClosedError" "This Connection is closed"), s)
  | Some db =>
      match f db with
      | inl e => (inl e, s)
      | inr db' => (inr tt, set_transactions (<[conn := db']> (transactions s)) s)
      end
  end.

(** Leaving [engine.begin()]: commit without an exception in flight,
    roll back with one; the connection goes back in both cases. *)
Definition begin_exit (conn : handle) (exc : option exn) (s : pg) : (exn + unit) * pg :=
  match transactions s !! conn with
  | None => (inr tt, s)
  | Some db =>
      let s' := set_transactions (delete conn (transactions s)) s in
      match exc with
      | None => (inr tt, set_schemas db s')
      | Some _ => (inr tt, s')
      end
  end.

(** [pool_size=10, max_overflow=20] *)
Definition pool_limit : nat := 30.

Definition session_execute (session : handle) (s : pg) : (exn + list row) * pg :=
  if decide (session ∈ in_use s) then (inr [], s)
  else if (size (in_use s) <? pool_limit)%nat
       then (inr [], set_in_use ({[session]} ∪ in_use s) s)
       else (inl (Error "TimeoutError" "QueuePool limit reached"), s).

(** [close()] gives the connection back; closing a session that holds
    none does nothing. *)
Definition session_close (session : handle) (s : pg) : (exn + unit) * pg :=
  (inr tt, set_in_use (in_use s ∖ {[session]}) s).

Definition pg_lib (X : Type) (c : call X) (s : pg) : (exn + X) * pg :=
  match c in call T return (exn + T) * pg with
  | create_engine _ _ => fresh s
  | create_async_engine _ _ _ _ => fresh s
  | sessionmaker _ _ => fresh s
  | Engine_connect _ => fresh s
  | Connection_execute _ text params => admin_execute text params s
  | Connection_exit _ _ => (inr tt, s)
  | AsyncEngine_begin _ =>
      let c := next_handle s in
      (inr c,
       Pg (databases s) (schemas s) (<[c := schemas s]> (transactions s)) (in_use s)
          (Datatypes.S c))
  | AsyncConnection_execute conn text => in_transaction conn (ddl text) s
  | AsyncConnection_run_sync_create_all conn metadata checkfirst =>
      in_transaction conn (create_all (default true checkfirst) metadata) s
  | AsyncEngine_begin_exit conn exc => begin_exit conn exc s
  | sessionmaker_call _ => fresh s
  | AsyncSession_execute session _ => session_execute session s
  | AsyncSession_close session => session_close session s
  | AsyncSession_aexit session _ => session_close session s
  end.


End Postgres.

(** * Vocabulary of the properties *)

Definition required : list string :=
  ["DB_HOST"; "DB_PORT"; "DB_NAME"; "DB_USER"; "DB_PASSWORD"].

(** A variable is missing when it is unset or set to the empty string. *)
Definition is_missing (environ : gmap string string) (name : string) : bool :=
  match environ !! name with
  | None => true
  | Some v => String.eqb v ""
  end.

Definition missing_names (environ : gmap string string) : list string :=
  List.filter (is_missing environ) required.

(** The requests a run of [m] from [w] makes, with their answers, in
    order. *)
Definition made {S A} (m : M S A) (w : world S) : list entry :=
  drop (List.length (history w)) (history (snd (m w))).



(** The runs of the existence check, when it is enabled: the administrative
    engine, a connection, the catalog query with the name bound, and the
    create statement exactly when the query answered and found no row. *)
Inductive check_trace (c : settings) : list entry -> Prop :=
| engine_failed e :
    check_trace c [Entry (create_engine (admin_url c) (Some "AUTOCOMMIT")) (inl e)]
| connect_failed h e :
    check_trace c [Entry (create_engine (admin_url c) (Some "AUTOCOMMIT")) (inr h);
                   Entry (Engine_connect h) (inl e)]
| query_failed h conn e r :
    check_trace c [Entry (create_engine (admin_url c) (Some "AUTOCOMMIT")) (inr h);
                   Entry (Engine_connect h) (inr conn);
                   Entry (Connection_execute conn select_datname
                            [("name", DB_NAME c)]) (inl e);
                   Entry (Connection_exit conn (Some e)) r]
| row_found h conn rows r :
    truthy_scalar (scalar rows) = true ->
    check_trace c [Entry (create_engine (admin_url c) (Some "AUTOCOMMIT")) (inr h);
                   Entry (Engine_connect h) (inr conn);
                   Entry (Connection_execute conn select_datname
                            [("name", DB_NAME c)]) (inr rows);
                   Entry (Connection_exit conn None) r]
| no_row_created h conn rows res r :
    truthy_scalar (scalar rows) = false ->
    check_trace c [Entry (create_engine (admin_url c) (Some "AUTOCOMMIT")) (inr h);
                   Entry (Engine_connect h) (inr conn);
                   Entry (Connection_execute conn select_datname
                            [("name", DB_NAME c)]) (inr rows);
                   Entry (Connection_execute conn (create_database c) []) (inr res);
                   Entry (Connection_exit conn None) r]
| no_row_create_failed h conn rows e r :
    truthy_scalar (scalar rows) = false ->
    check_trace c [Entry (create_engine (admin_url c) (Some "AUTOCOMMIT")) (inr h);
                   Entry (Engine_connect h) (inr conn);
                   Entry (Connection_execute conn select_datname
                            [("name", DB_NAME c)]) (inr rows);
                   Entry (Connection_execute conn (create_database c) []) (inl e);
                   Entry (Connection_exit conn (Some e)) r].

(** An operation that logs and re-raises: without a failed request it
    returns; with one it raises the exception of a failed request, and when
    that is an [Exception] the last record of the log is the error, with
    the exception attached ([exc_info=True]). *)
Definition reraises {S} (op : M S unit) (prefix : string) (w : world S) : Prop :=
  ((forall en, en ∈ made op w -> failure en = None) -> fst (op w) = Return tt)
  /\ (forall en, en ∈ made op w -> failure en <> None ->
        exists en' e,
          en' ∈ made op w /\ failure en' = Some e
          /\ fst (op w) = Raised e
          /\ (isinstance_Exception e = true ->
              last (log (snd (op w))) =
              Some (LogRecord ERROR (prefix +:+ str_exn e) (Some e)))).

(** Concrete inputs on the reference model, for the instances of the
    properties below. *)
Module Sample.

Definition environ0 : gmap string string :=
  {[ "DB_HOST" := "db"; "DB_PORT" := "5432"; "DB_NAME" := "meet";
     "DB_USER" := "svc"; "DB_PASSWORD" := "s3cret" ]}.

(** A name that is not an identifier. *)
Definition environ1 : gmap string string :=
  <["DB_NAME" := "meet; DROP DATABASE billing"]> environ0.

Definition globals0 : module_globals := Globals (read_settings environ0) 2 3 4.

Definition metadata0 : list string := ["users"; "meetings"].

(** A populated database: two tables with rows in the default schema, one
    of them unknown to the models. *)
Definition server0 : Postgres.pg :=
  Postgres.Pg {["postgres"; "meet"]}
    {[ "public" := {[ "users" := [[1%Z; 7%Z]; [2%Z; 8%Z]]; "legacy" := [[3%Z]] ]} ]}
    ∅ ∅ 5.

Definition world0 : world Postgres.pg := World environ0 [] [] server0.

Definition world1 : world Postgres.pg := World environ1 [] [] server0.

(** [DB_PORT] unset and [DB_PASSWORD] empty. *)
Definition environ2 : gmap string string :=
  <["DB_PASSWORD" := ""]> (delete "DB_PORT" environ0).

Definition world2 : world Postgres.pg := World environ2 [] [] server0.

(** Auto-create switched off. *)
Definition world3 : world Postgres.pg :=
  World (<["DB_AUTO_CREATE" := "0"]> environ0) [] [] server0.

(** A library interrupted at every request. *)
Definition interrupted (X : Type) (c : call X) (s : unit) : (exn + X) * unit :=
  (inl (BaseOnly "KeyboardInterrupt"), s).

(** A request handler that uses its session and then fails. *)
Definition failing_handler (session : handle) : M Postgres.pg unit :=
  bind (perform Postgres.pg_lib (AsyncSession_execute session "SELECT 1"))
       (fun _ => raise (Error "HTTPException" "not found")).

End Sample.

(** ** Further vocabulary *)

(** The records a run of [m] from [w] adds to the log, in order. *)
Definition logged {S A} (m : M S A) (w : world S) : list log_record :=
  drop (List.length (log w)) (log (snd (m w))).

(** A request without its answer. *)
Definition request : Type := {X : Type & call X}.

Definition req {X : Type} (c : call X) : request := existT X c.

Definition request_of (en : entry) : request :=
  match en with
  | @Entry X c _ => existT X c
  end.

(** The three constructors of lines 67-80 (the administrative engine is the
    one created with an isolation level). *)
Definition is_constructor (en : entry) : bool :=
  match en with
  | Entry (create_async_engine _ _ _ _) _ => true
  | Entry (sessionmaker _ _) _ => true
  | Entry (create_engine _ None) _ => true
  | _ => false
  end.

(** The connection an entry opened, and the one an entry released. *)
Definition connected (en : entry) : option handle :=
  match en with
  | Entry (Engine_connect _) (inr conn) => Some conn
  | _ => None
  end.

Definition released (en : entry) : option handle :=
  match en with
  | Entry (Connection_exit conn _) _ => Some conn
  | _ => None
  end.

Definition created_all (en : entry) : bool :=
  match en with
  | Entry (AsyncConnection_run_sync_create_all _ _ _) (inr _) => true
  | _ => false
  end.

(** The exit of [engine.begin()] without an exception in flight. *)
Definition is_commit {X : Type} (c : call X) : bool :=
  match c with
  | AsyncEngine_begin_exit _ None => true
  | _ => false
  end.

(** A run inside one [engine.begin()] block: either the entry failed and
    nothing else was asked, or the requests of the body are the planned
    ones, in order, up to the first that fails, and the exit of the block
    on the same connection closes the run and is told that failure (or
    [None] when the whole plan went through). *)
Definition in_one_block {S : Type} (engine_ : handle) (planned : handle -> list request)
    (op : M S unit) (w : world S) : Prop :=
  (exists e, made op w = [Entry (AsyncEngine_begin engine_) (inl e)])
  \/ (exists conn body r,
        made op w =
          (Entry (AsyncEngine_begin engine_) (inr conn)
           :: body ++ [Entry (AsyncEngine_begin_exit conn (head (omap failure body))) r])%list
        /\ map request_of body `prefix_of` planned conn
        /\ (omap failure body = [] -> map request_of body = planned conn)
        /\ (forall en, en ∈ body -> failure en <> None -> last body = Some en)).

(** More concrete inputs. *)
Module Scenario.

(** The same variables missing as in [Sample.environ2], everything else
    different. *)
Definition environ2b : gmap string string :=
  {[ "DB_HOST" := "replica"; "DB_PORT" := ""; "DB_NAME" := "billing";
     "DB_USER" := "root" ]}.

Definition world2b : world unit := World environ2b [] [] tt.



(** A database without its default schema. *)
Definition server2 : Postgres.pg :=
  Postgres.Pg {["postgres"; "meet"]} {[ "audit" := {[ "events" := [[9%Z]] ]} ]} ∅ ∅ 0.

Definition world6 : world Postgres.pg := World Sample.environ0 [] [] server2.

(** The reference library with a server that loses the connection at
    every commit. *)
Definition commit_fails (X : Type) (c : call X) (s : Postgres.pg)
  : (exn + X) * Postgres.pg :=
  match c in call T return (exn + T) * Postgres.pg with
  | AsyncEngine_begin_exit conn None =>
      (inl (Error "OperationalError" "server closed the connection unexpectedly"), s)
  | c' => Postgres.pg_lib _ c' s
  end.

End Scenario.

(** * Properties *)

(** ** Symbolic execution over any library *)

Ltac exec lib :=
  repeat match goal with
  | |- context [lib ?X ?c ?s] =>
      let E := fresh "E" in let e := fresh "e" in let x := fresh "x" in
      let s' := fresh "s" in
      destruct (lib X c s) as [[e | x] s'] eqn:E; cbn -[String.append]
  | |- context [truthy_scalar ?v] =>
      let E := fresh "T" in
      destruct (truthy_scalar v) eqn:E; cbn -[String.append]
  | |- context [isinstance_Exception ?e] =>
      let E := fresh "I" in
      destruct (isinstance_Exception e) eqn:E; cbn -[String.append]
  end;
  rewrite <- ?app_assoc, ?drop_app_length; cbn -[String.append].

Ltac mem := repeat first [apply list_elem_of_here | apply list_elem_of_further].

(** The cases of a membership in an explicit list. *)
Ltac cases_of Hin tac :=
  apply list_elem_of_In in Hin; cbn -[String.append] in Hin;
  repeat (destruct Hin as [<- | Hin]; [tac|]);
  try contradiction.

(** An exception that is not an [Exception] contradicts [H]. *)
Ltac only_exceptions H :=
  match goal with
  | I : isinstance_Exception ?e = false |- _ =>
      match type of H with
      | context [@Entry ?X ?c (inl e)] =>
          exfalso;
          assert (isinstance_Exception e = true)
            by (apply (H (@Entry X c (inl e)) e); [mem | reflexivity]);
          congruence
      end
  end.

Ltac failed_in H :=
  match type of H with
  | context [@Entry ?X ?c (inl ?e)] =>
      specialize (H (@Entry X c (inl e)) ltac:(mem)); discriminate H
  end.

Ltac reraised :=
  match goal with
  | |- context [@Raised unit ?e = Raised _] =>
      match goal with
      | |- context [@Entry ?X ?c (inl e)] => exists (@Entry X c (inl e)), e
      end
  end;
  split; [mem|]; split; [reflexivity|]; split; [reflexivity|];
  intros Hi; first [congruence | rewrite last_app; reflexivity].

Ltac schema_op lib :=
  let H := fresh "H" in let en := fresh "en" in
  let Hin := fresh "Hin" in let Hf := fresh "Hf" in
  exec lib;
  (split; [first [reflexivity | intros H; failed_in H] | intros en Hin Hf]);
  first [ reraised | solve [cases_of Hin ltac:(cbn in Hf; congruence)] ].

(** ** Configuration *)

Lemma missing_vars_spec (environ : gmap string string) :
  missing_vars (read_settings environ) = missing_names environ.
Proof.
  unfold missing_vars, missing_names, read_settings, settings_items, required,
    is_missing; cbn [DB_HOST DB_PORT DB_NAME DB_USER DB_PASSWORD List.filter].
  destruct (environ !! "DB_HOST") as [[|? ?]|];
    destruct (environ !! "DB_PORT") as [[|? ?]|];
    destruct (environ !! "DB_NAME") as [[|? ?]|];
    destruct (environ !! "DB_USER") as [[|? ?]|];
    destruct (environ !! "DB_PASSWORD") as [[|? ?]|];
    reflexivity.
Qed.

Lemma validate_spec (c : settings) :
  validate c =
  match missing_vars c with
  | [] => Return tt
  | _ :: _ =>
      Raised (ValueError ("Missing required database environment variables: "
                          +:+ join ", " (missing_vars c)))
  end.
Proof.
  destruct c as [[[|? ?]|] [[|? ?]|] [[|? ?]|] [[|? ?]|] [[|? ?]|]]; reflexivity.
Qed.

(** C3.  Whatever the environment, the names the module reports are the
    required variables that are unset or empty, in the order of the
    declaration and each once; when there is one, the import raises
    [ValueError] with the message listing them, before anything else is
    done (the world is untouched); when there is none, the validation
    passes and the import goes on with the set-up. *)
Theorem startup_lists_exactly_the_missing_variables
    {S : Type} (lib : forall X : Type, call X -> S -> (exn + X) * S)
    (w : world S) :
  let c := read_settings (environ w) in
  missing_vars c = missing_names (environ w)
  /\ (forall name : string,
        name ∈ missing_vars c <->
        name ∈ required /\
        (environ w !! name = None \/ environ w !! name = Some ""))
  /\ module_body lib w =
     match missing_names (environ w) with
     | [] => module_setup lib c w
     | _ :: _ =>
         (Raised (ValueError ("Missing required database environment variables: "
                              +:+ join ", " (missing_names (environ w)))), w)
     end.
Proof.
  intros c. split; [apply missing_vars_spec|]. split.
  - intros name. subst c. rewrite missing_vars_spec. unfold missing_names.
    rewrite !list_elem_of_In, filter_In.
    unfold is_missing. split.
    + intros [Hreq Hm]. split; [exact Hreq|].
      destruct (environ w !! name) as [v|]; [|now left].
      right. apply String.eqb_eq in Hm. now subst.
    + intros [Hreq [Hm|Hm]]; (split; [exact Hreq|]); rewrite Hm; reflexivity.
  - unfold module_body, bind, os_environ, lift. fold c.
    rewrite validate_spec, <- (missing_vars_spec (environ w)). fold c.
    destruct (missing_vars c); reflexivity.
Qed.

Example startup_with_two_missing :
  module_body Postgres.pg_lib Sample.world2 =
  (Raised (ValueError
     "Missing required database environment variables: DB_PORT, DB_PASSWORD"),
   Sample.world2).
Proof. vm_compute. reflexivity. Qed.

(** C8.  With the five variables set and not empty the validation passes
    and the two connection strings are the interpolations of the values. *)
Theorem connection_urls_are_interpolated
    (environ : gmap string string) (host port name user password : string) :
  environ !! "DB_HOST" = Some host -> host <> "" ->
  environ !! "DB_PORT" = Some port -> port <> "" ->
  environ !! "DB_NAME" = Some name -> name <> "" ->
  environ !! "DB_USER" = Some user -> user <> "" ->
  environ !! "DB_PASSWORD" = Some password -> password <> "" ->
  let c := read_settings environ in
  validate c = Return tt
  /\ DATABASE_URL c =
     "postgresql+asyncpg://" +:+ user +:+ ":" +:+ password +:+ "@" +:+ host
     +:+ ":" +:+ port +:+ "/" +:+ name
  /\ DATABASE_URL_SYNC c =
     "postgresql://" +:+ user +:+ ":" +:+ password +:+ "@" +:+ host
     +:+ ":" +:+ port +:+ "/" +:+ name.
Proof.
  intros Hh Hh' Hp Hp' Hn Hn' Hu Hu' Hw Hw' c.
  subst c. unfold read_settings, validate, DATABASE_URL, DATABASE_URL_SYNC.
  cbn [DB_HOST DB_PORT DB_NAME DB_USER DB_PASSWORD].
  rewrite Hh, Hp, Hn, Hu, Hw. cbn [fmt].
  split; [|split; reflexivity].
  destruct host; [congruence|]. destruct port; [congruence|].
  destruct name; [congruence|]. destruct user; [congruence|].
  destruct password; [congruence|]. reflexivity.
Qed.

Lemma connection_urls_are_interpolated_witness :
  let environ : gmap string string :=
    {[ "DB_HOST" := "db"; "DB_PORT" := "5432"; "DB_NAME" := "meet";
       "DB_USER" := "svc"; "DB_PASSWORD" := "s3cret" ]} in
  let c := read_settings environ in
  validate c = Return tt
  /\ DATABASE_URL c = "postgresql+asyncpg://svc:s3cret@db:5432/meet"
  /\ DATABASE_URL_SYNC c = "postgresql://svc:s3cret@db:5432/meet".
Proof.
  intros environ.
  apply (connection_urls_are_interpolated environ "db" "5432" "meet" "svc" "s3cret");
    solve [vm_compute; reflexivity | discriminate].
Defined.

(** ** Statement logging *)

Lemma ascii_upper_inv (c t : ascii) :
  ascii_upper c = t ->
  c = t \/ c = ascii_of_nat (nat_of_ascii t + 32).
Proof.
  unfold ascii_upper.
  destruct ((97 <=? nat_of_ascii c)%nat && (nat_of_ascii c <=? 122)%nat) eqn:Hc;
    intros <-; [right | left; reflexivity].
  apply andb_true_iff in Hc as [Hlo Hhi].
  apply Nat.leb_le in Hlo. apply Nat.leb_le in Hhi.
  rewrite nat_ascii_embedding by lia.
  replace (nat_of_ascii c - 32 + 32)%nat with (nat_of_ascii c) by lia.
  symmetry. apply ascii_nat_embedding.
Qed.

Lemma upper_is_DEBUG (v : string) :
  upper v = "DEBUG" <->
  exists c1 c2 c3 c4 c5 : ascii,
    v = String c1 (String c2 (String c3 (String c4 (String c5 EmptyString))))
    /\ (c1 = "D" \/ c1 = "d")%char /\ (c2 = "E" \/ c2 = "e")%char
    /\ (c3 = "B" \/ c3 = "b")%char /\ (c4 = "U" \/ c4 = "u")%char
    /\ (c5 = "G" \/ c5 = "g")%char.
Proof.
  split.
  - destruct v as [|c1 [|c2 [|c3 [|c4 [|c5 [|c6 v]]]]]]; cbn [upper];
      intros H; try discriminate H.
    injection H as H1 H2 H3 H4 H5.
    exists c1, c2, c3, c4, c5. split; [reflexivity|].
    repeat split;
      [ apply (ascii_upper_inv c1 "D") | apply (ascii_upper_inv c2 "E")
      | apply (ascii_upper_inv c3 "B") | apply (ascii_upper_inv c4 "U")
      | apply (ascii_upper_inv c5 "G") ]; assumption.
  - intros (c1 & c2 & c3 & c4 & c5 & -> & H1 & H2 & H3 & H4 & H5).
    destruct H1 as [-> | ->], H2 as [-> | ->], H3 as [-> | ->],
      H4 as [-> | ->], H5 as [-> | ->]; reflexivity.
Qed.

(** C9.  The async engine is created with [echo] on exactly when
    [LOG_LEVEL] is set to one of the spellings of DEBUG, in any mix of upper
    and lower case; ["debug"] and ["Debug"] turn it on, and without the
    variable (default ["INFO"]) it is off. *)
Theorem echo_iff_log_level_is_debug
    {S : Type} (lib : forall X : Type, call X -> S -> (exn + X) * S)
    (c : settings) (w : world S) :
  (exists r, history (snd (make_engine lib c w)) =
             (history w ++ [Entry (create_async_engine (DATABASE_URL c)
                                     (echo (environ w)) 10 20) r])%list)
  /\ (echo (environ w) = true <->
      upper (default "INFO" (environ w !! "LOG_LEVEL")) = "DEBUG")
  /\ (echo (environ w) = true <->
      exists c1 c2 c3 c4 c5 : ascii,
        environ w !! "LOG_LEVEL" =
          Some (String c1 (String c2 (String c3 (String c4 (String c5 EmptyString)))))
        /\ (c1 = "D" \/ c1 = "d")%char /\ (c2 = "E" \/ c2 = "e")%char
        /\ (c3 = "B" \/ c3 = "b")%char /\ (c4 = "U" \/ c4 = "u")%char
        /\ (c5 = "G" \/ c5 = "g")%char)
  /\ (environ w !! "LOG_LEVEL" = Some "debug" -> echo (environ w) = true)
  /\ (environ w !! "LOG_LEVEL" = Some "Debug" -> echo (environ w) = true)
  /\ (environ w !! "LOG_LEVEL" = None -> echo (environ w) = false).
Proof.
  split; [|split; [|split; [|split; [|split]]]].
  - unfold make_engine, bind, os_environ, perform.
    destruct (lib _ _ _) as [[e | x] s]; eexists; reflexivity.
  - unfold echo. apply String.eqb_eq.
  - unfold echo. rewrite String.eqb_eq, upper_is_DEBUG.
    destruct (environ w !! "LOG_LEVEL") as [v|]; cbn [default from_option id].
    + split.
      * intros (c1 & c2 & c3 & c4 & c5 & -> & H). exists c1, c2, c3, c4, c5. auto.
      * intros (c1 & c2 & c3 & c4 & c5 & [= ->] & H). exists c1, c2, c3, c4, c5. auto.
    + split.
      * intros (c1 & c2 & c3 & c4 & c5 & H & _). discriminate H.
      * intros (c1 & c2 & c3 & c4 & c5 & H & _). discriminate H.
  - intros H. unfold echo. rewrite H. reflexivity.
  - intros H. unfold echo. rewrite H. reflexivity.
  - intros H. unfold echo. rewrite H. reflexivity.
Qed.

(** ** Best-effort creation of the database *)

(** C6.  Whatever the library answers, as long as what it raises are
    exceptions in the sense of [except Exception] (driver, privilege and
    network errors, the "already exists" of a lost race),
    [_ensure_database_exists] returns normally; and when a request failed,
    the last record of the log is the error with the exception that ended
    the check. *)
Theorem ensure_database_exists_swallows_failures
    {S : Type} (lib : forall X : Type, call X -> S -> (exn + X) * S)
    (c : settings) (w : world S) :
  (forall en e, en ∈ made (_ensure_database_exists lib c) w ->
                failure en = Some e -> isinstance_Exception e = true) ->
  fst (_ensure_database_exists lib c w) = Return tt
  /\ ((exists en, en ∈ made (_ensure_database_exists lib c) w /\ failure en <> None) ->
      exists en e,
        en ∈ made (_ensure_database_exists lib c) w /\ failure en = Some e
        /\ last (log (snd (_ensure_database_exists lib c w))) =
           Some (LogRecord ERROR
                   ("Database auto-create check failed (continuing anyway): "
                    +:+ str_exn e) (Some e))).
Proof.
  unfold made, _ensure_database_exists, check_and_create, try_except, with_, bind,
    os_environ, perform, emit.
  cbn -[String.append].
  destruct (String.eqb _ "1"); cbn -[String.append].
  2:{ rewrite drop_all. intros _. split; [reflexivity|].
      intros (en & Hin & _). inversion Hin. }
  exec lib; intros H; try only_exceptions H; (split; [reflexivity|]).
  all: try solve [intros (en & Hin & Hf); cases_of Hin ltac:(cbn in Hf; congruence)].
  all: intros _.
  all: match goal with
       | |- context [[LogRecord ERROR _ (Some ?e)]] =>
           match type of H with
           | context [@Entry ?X ?c (inl e)] =>
               exists (@Entry X c (inl e)), e
           end
       end.
  all: split; [mem|split; [reflexivity|rewrite last_app; reflexivity]].
Qed.

Lemma ensure_database_exists_swallows_failures_witness :
  (forall en e,
     en ∈ made (_ensure_database_exists Postgres.pg_lib (read_settings Sample.environ1))
            Sample.world1 ->
     failure en = Some e -> isinstance_Exception e = true)
  /\ fst (_ensure_database_exists Postgres.pg_lib (read_settings Sample.environ1)
            Sample.world1) = Return tt
  /\ ((exists en,
         en ∈ made (_ensure_database_exists Postgres.pg_lib
                      (read_settings Sample.environ1)) Sample.world1
         /\ failure en <> None) ->
      exists en e,
        en ∈ made (_ensure_database_exists Postgres.pg_lib
                     (read_settings Sample.environ1)) Sample.world1
        /\ failure en = Some e
        /\ last (log (snd (_ensure_database_exists Postgres.pg_lib
                             (read_settings Sample.environ1) Sample.world1))) =
           Some (LogRecord ERROR
                   ("Database auto-create check failed (continuing anyway): "
                    +:+ str_exn e) (Some e))).
Proof.
  assert (Hex : forall en e,
             en ∈ made (_ensure_database_exists Postgres.pg_lib
                          (read_settings Sample.environ1)) Sample.world1 ->
             failure en = Some e -> isinstance_Exception e = true).
  { intros en e Hin Hf.
    let l := eval vm_compute in
      (made (_ensure_database_exists Postgres.pg_lib (read_settings Sample.environ1))
         Sample.world1) in
    change (en ∈ l) in Hin.
    cases_of Hin ltac:(cbn in Hf; first [discriminate Hf | injection Hf as <-; reflexivity]). }
  split; [exact Hex|].
  exact (ensure_database_exists_swallows_failures Postgres.pg_lib
           (read_settings Sample.environ1) Sample.world1 Hex).
Defined.

(** The run of the instance above: the server rejects the statement, the
    error is logged with the exception and the function returns. *)
Example ensure_database_exists_rejected_statement :
  let run := _ensure_database_exists Postgres.pg_lib (read_settings Sample.environ1)
               Sample.world1 in
  fst run = Return tt
  /\ made (_ensure_database_exists Postgres.pg_lib (read_settings Sample.environ1))
       Sample.world1 =
     [Entry (create_engine "postgresql://svc:s3cret@db:5432/postgres" (Some "AUTOCOMMIT"))
        (inr 5);
      Entry (Engine_connect 5) (inr 6);
      Entry (Connection_execute 6 "SELECT 1 FROM pg_database WHERE datname=:name"
               [("name", Some "meet; DROP DATABASE billing")]) (inr []);
      Entry (Connection_execute 6 "CREATE DATABASE meet; DROP DATABASE billing" [])
        (inl (Error "ProgrammingError" "syntax error"));
      Entry (Connection_exit 6 (Some (Error "ProgrammingError" "syntax error"))) (inr tt)]
  /\ last (log (snd run)) =
     Some (LogRecord ERROR
             "Database auto-create check failed (continuing anyway): syntax error"
             (Some (Error "ProgrammingError" "syntax error"))).
Proof. vm_compute. repeat split; reflexivity. Qed.

(** What [except Exception] does not catch goes through. *)
Example ensure_database_exists_interrupted :
  fst (_ensure_database_exists Sample.interrupted (read_settings Sample.environ0)
         (World Sample.environ0 [] [] tt)) =
  Raised (BaseOnly "KeyboardInterrupt").
Proof. vm_compute. reflexivity. Qed.

(** C7.  The value of [DB_AUTO_CREATE] is read with the default ["1"]:
    set to anything else, the function returns without a single request to
    the library (no engine, no connection, no statement) and leaves the
    server as it is; unset or set to ["1"], the run is one of
    [check_trace]: the catalog is queried for the configured name and the
    create statement follows exactly when the query found no row. *)
Theorem auto_create_switch
    {S : Type} (lib : forall X : Type, call X -> S -> (exn + X) * S)
    (c : settings) (w : world S) :
  (forall v, environ w !! "DB_AUTO_CREATE" = Some v -> v <> "1" ->
     fst (_ensure_database_exists lib c w) = Return tt
     /\ made (_ensure_database_exists lib c) w = []
     /\ ext (snd (_ensure_database_exists lib c w)) = ext w)
  /\ (environ w !! "DB_AUTO_CREATE" = None \/ environ w !! "DB_AUTO_CREATE" = Some "1" ->
      check_trace c (made (_ensure_database_exists lib c) w)).
Proof.
  unfold made, _ensure_database_exists, check_and_create, try_except, with_, bind,
    os_environ, perform, emit.
  cbn -[String.append].
  split.
  - intros v -> Hv. cbn -[String.append].
    destruct (String.eqb_spec v "1") as [->|_]; [congruence|].
    cbn. rewrite drop_all. auto.
  - intros [-> | ->]; cbn -[String.append]; exec lib; econstructor; eauto.
Qed.

Example auto_create_switched_off :
  _ensure_database_exists Postgres.pg_lib (read_settings Sample.environ0) Sample.world3 =
  (Return tt,
   World (environ Sample.world3)
     [LogRecord INFO "DB_AUTO_CREATE disabled; skipping database existence check." None]
     [] Sample.server0).
Proof. vm_compute. reflexivity. Qed.



(** ** Schema operations *)

(** C5.  Whatever the library answers, [init_db] and [recreate_db] return
    normally only when no request failed; after a failure they raise the
    exception of a failed request (the one that left the [try] block), and
    the error has been logged with that exception attached just before. *)
Theorem schema_operations_log_and_reraise
    {S : Type} (lib : forall X : Type, call X -> S -> (exn + X) * S)
    (Base_metadata : list string) (g : module_globals) (w : world S) :
  reraises (init_db lib Base_metadata g) "Error initializing database tables: " w
  /\ reraises (recreate_db lib Base_metadata g) "Error recreating database tables: " w.
Proof.
  split.
  - unfold reraises, made, init_db, try_except, with_, bind, perform, emit, raise.
    cbn -[String.append]. schema_op lib.
  - unfold reraises, made, recreate_db, try_except, with_, bind, perform, emit, raise.
    cbn -[String.append]. schema_op lib.
Qed.

(** The requests and answers of the runs that return. *)
Section SuccessPaths.

Context {S : Type} (lib : forall X : Type, call X -> S -> (exn + X) * S).
Variables (md : list string) (g : module_globals) (w : world S).


Lemma init_db_run conn s1 s2 s3 :
  lib _ (AsyncEngine_begin (engine g)) (ext w) = (inr conn, s1) ->
  lib _ (AsyncConnection_run_sync_create_all conn md (Some true)) s1 = (inr tt, s2) ->
  lib _ (AsyncEngine_begin_exit conn None) s2 = (inr tt, s3) ->
  fst (init_db lib md g w) = Return tt /\ ext (snd (init_db lib md g w)) = s3.
Proof.
  intros E1 E2 E3.
  unfold init_db, try_except, with_, bind, perform, emit, raise.
  cbn -[String.append]. rewrite E1. cbn -[String.append].
  rewrite E2. cbn -[String.append]. rewrite E3. cbn -[String.append]. auto.
Qed.

Lemma recreate_db_success :
  fst (recreate_db lib md g w) = Return tt ->
  exists conn s1 s2 s3 s4 s5,
    lib _ (AsyncEngine_begin (engine g)) (ext w) = (inr conn, s1)
    /\ lib _ (AsyncConnection_execute conn "DROP SCHEMA public CASCADE;") s1 = (inr tt, s2)
    /\ lib _ (AsyncConnection_execute conn "CREATE SCHEMA public;") s2 = (inr tt, s3)
    /\ lib _ (AsyncConnection_run_sync_create_all conn md None) s3 = (inr tt, s4)
    /\ lib _ (AsyncEngine_begin_exit conn None) s4 = (inr tt, s5)
    /\ ext (snd (recreate_db lib md g w)) = s5
    /\ made (recreate_db lib md g) w =
       [Entry (AsyncEngine_begin (engine g)) (inr conn);
        Entry (AsyncConnection_execute conn "DROP SCHEMA public CASCADE;") (inr tt);
        Entry (AsyncConnection_execute conn "CREATE SCHEMA public;") (inr tt);
        Entry (AsyncConnection_run_sync_create_all conn md None) (inr tt);
        Entry (AsyncEngine_begin_exit conn None) (inr tt)].
Proof.
  unfold made, recreate_db, try_except, with_, bind, perform, emit, raise.
  cbn -[String.append].
  exec lib; intros H; try discriminate H.
  repeat match goal with u : unit |- _ => destruct u end.
  eexists _, _, _, _, _, _. repeat split; eauto.
Qed.

End SuccessPaths.

(** ** The reference model *)

Import Postgres.

Lemma in_transaction_inr conn f (s s' : pg) :
  in_transaction conn f s = (inr tt, s') ->
  exists db db',
    transactions s !! conn = Some db /\ f db = inr db'
    /\ s' = set_transactions (<[conn := db']> (transactions s)) s.
Proof.
  unfold in_transaction. destruct (transactions s !! conn) as [db|]; [|discriminate].
  destruct (f db) as [e|db'] eqn:Hf; [discriminate|].
  intros [= <-]. eauto.
Qed.

Lemma in_transaction_ok conn f (s : pg) db db' :
  transactions s !! conn = Some db -> f db = inr db' ->
  in_transaction conn f s =
  (inr tt, set_transactions (<[conn := db']> (transactions s)) s).
Proof. intros H1 H2. unfold in_transaction. now rewrite H1, H2. Qed.

(** With [checkfirst], [create_all] keeps the tables that exist, with their
    rows, and adds the missing ones, empty. *)
Lemma create_all_checkfirst (md : list string)
    (db : gmap string (gmap string (list row))) (tables : gmap string (list row)) :
  db !! "public" = Some tables ->
  exists tables',
    create_all true md db = inr (<["public" := tables']> db)
    /\ forall t, tables' !! t =
                 match tables !! t with
                 | Some rows => Some rows
                 | None => if decide (t ∈ md) then Some [] else None
                 end.
Proof.
  revert db tables. induction md as [|t md IH]; intros db tables Hdb.
  - exists tables. split.
    + cbn. now rewrite insert_id.
    + intros t. destruct (tables !! t); [reflexivity|].
      destruct (decide (t ∈ [])) as [Hin|]; [inversion Hin|reflexivity].
  - cbn [create_all]. unfold create_table. rewrite Hdb.
    destruct (tables !! t) as [rows|] eqn:Ht.
    + destruct (IH db tables Hdb) as (tables' & -> & Hl).
      exists tables'. split; [reflexivity|].
      intros u. rewrite Hl. destruct (tables !! u) eqn:Hu; [reflexivity|].
      destruct (decide (u ∈ md)), (decide (u ∈ t :: md)) as [|Hn]; try reflexivity.
      * exfalso. apply Hn. now right.
      * apply elem_of_cons in e as [-> | ?]; [congruence|contradiction].
    + destruct (IH (<["public" := <[t := []]> tables]> db) (<[t := []]> tables))
        as (tables' & -> & Hl); [apply lookup_insert_eq|].
      exists tables'. split; [now rewrite insert_insert_eq|].
      intros u. rewrite Hl. destruct (decide (t = u)) as [<-|Hne].
      * rewrite lookup_insert_eq.
        destruct (decide (t ∈ t :: md)) as [|Hn]; [now rewrite Ht|].
        exfalso. apply Hn. now left.
      * rewrite lookup_insert_ne by exact Hne.
        destruct (tables !! u); [reflexivity|].
        destruct (decide (u ∈ md)), (decide (u ∈ t :: md)) as [|Hn]; try reflexivity.
        -- exfalso. apply Hn. now right.
        -- apply elem_of_cons in e as [-> | ?]; [congruence|contradiction].
Qed.



(** The catalog query of the reference server finds a row exactly when the
    name is a database of the cluster. *)
Lemma catalog_query (s : pg) (conn : handle) (name : string) :
  pg_lib _ (Connection_execute conn select_datname [("name", Some name)]) s =
  (inr (if decide (name ∈ databases s) then [[1%Z]] else []), s).
Proof. reflexivity. Qed.

(** What a [recreate_db] that returns leaves on the server: the default
    schema dropped, created again and filled from the metadata; nothing else
    is addressed. *)
Lemma recreate_db_final_schemas (md : list string) (g : module_globals) (w : world pg) :
  fst (recreate_db pg_lib md g w) = Return tt ->
  exists tables,
    schemas (ext (snd (recreate_db pg_lib md g w))) =
      <["public" := tables]> (<["public" := ∅]> (delete "public" (schemas (ext w))))
    /\ forall t, tables !! t = if decide (t ∈ md) then Some [] else None.
Proof.
  intros H.
  destruct (recreate_db_success pg_lib md g w H)
    as (conn & s1 & s2 & s3 & s4 & s5 & E1 & E2 & E3 & E4 & E5 & -> & _).
  clear H.
  cbn in E1. injection E1 as <- <-.
  cbn in E2. apply in_transaction_inr in E2 as (db0 & db1 & Ht0 & Hd1 & ->).
  cbn in Ht0. rewrite lookup_insert_eq in Ht0. injection Ht0 as <-.
  unfold ddl in Hd1. cbn in Hd1.
  destruct (schemas (ext w) !! "public") as [old|] eqn:Hold; [|discriminate].
  injection Hd1 as <-.
  cbn in E3. apply in_transaction_inr in E3 as (db1 & db2 & Ht1 & Hd2 & ->).
  cbn in Ht1. rewrite lookup_insert_eq in Ht1. injection Ht1 as <-.
  unfold ddl in Hd2. cbn in Hd2. rewrite lookup_delete_eq in Hd2. injection Hd2 as <-.
  cbn in E4. apply in_transaction_inr in E4 as (db2 & db3 & Ht2 & Hd3 & ->).
  cbn in Ht2. rewrite lookup_insert_eq in Ht2. injection Ht2 as <-.
  destruct (create_all_checkfirst md
              (<["public" := ∅]> (delete "public" (schemas (ext w)))) ∅)
    as (tables & Hc & Hl); [apply lookup_insert_eq|].
  rewrite Hc in Hd3. injection Hd3 as <-.
  cbn in E5. unfold begin_exit in E5. cbn in E5.
  rewrite lookup_insert_eq in E5. injection E5 as <-.
  exists tables. split; [reflexivity|].
  intros t. rewrite Hl, lookup_empty. reflexivity.
Qed.

(** The other schemas of the database are as they were. *)
Lemma recreate_db_other_schemas (md : list string) (g : module_globals) (w : world pg)
    (name : string) :
  fst (recreate_db pg_lib md g w) = Return tt ->
  name <> "public" ->
  schemas (ext (snd (recreate_db pg_lib md g w))) !! name = schemas (ext w) !! name.
Proof.
  intros H Hne. destruct (recreate_db_final_schemas md g w H) as (tables & -> & _).
  rewrite !lookup_insert_ne by congruence. now apply lookup_delete_ne.
Qed.





(** ** Session provider *)

(** On any library: once the session exists, the first request after the
    consuming block, however it ended, is the [close] of the session, and
    the exit of the [async with] follows. *)
Lemma get_db_closes_on_any_library
    {S A : Type} (lib : forall X : Type, call X -> S -> (exn + X) * S)
    (g : module_globals) (consumer : handle -> M S A)
    (w w0 w1 : world S) (session : handle) (o : outcome A) :
  perform lib (sessionmaker_call (async_session_local g)) w = (Return session, w0) ->
  consumer session w0 = (o, w1) ->
  exists r r',
    history (snd (get_db lib g consumer w)) =
    (history w1 ++
     [Entry (AsyncSession_close session) r;
      Entry (AsyncSession_aexit session
               (match r with inl e => Some e | inr _ => exc_of o end)) r'])%list.
Proof.
  intros Hopen Hc. unfold get_db, with_, try_finally. rewrite Hopen, Hc.
  unfold perform.
  destruct (lib _ (AsyncSession_close session) (ext w1)) as [[e|[]] s1]; cbn.
  - destruct (lib _ (AsyncSession_aexit session (Some e)) s1) as [[e'|[]] s2]; cbn;
      rewrite <- app_assoc; eexists (inl e), _; reflexivity.
  - destruct (lib _ (AsyncSession_aexit session (exc_of o)) s1) as [[e'|[]] s2]; cbn;
      rewrite <- app_assoc; eexists (inr tt), _; reflexivity.
Qed.

(** C4.  On the reference model, [get_db] creates a session from the
    factory, hands it to the consuming block, and whatever the outcome [o]
    of the block (a value, an exception raised in it, [GeneratorExit] for a
    caller that leaves early), the session is closed by the [finally] and
    again by the exit of [async with]; both answer normally, the outcome is
    the one of the block, and afterwards the session holds no connection of
    the pool. *)
Theorem get_db_closes_the_session_on_every_exit
    {A : Type} (g : module_globals) (consumer : handle -> M pg A) (w : world pg) :
  let session := next_handle (ext w) in
  exists w0 o w1,
    perform pg_lib (sessionmaker_call (async_session_local g)) w = (Return session, w0)
    /\ consumer session w0 = (o, w1)
    /\ fst (get_db pg_lib g consumer w) = o
    /\ history (snd (get_db pg_lib g consumer w)) =
       (history w1 ++ [Entry (AsyncSession_close session) (inr tt);
                       Entry (AsyncSession_aexit session (exc_of o)) (inr tt)])%list
    /\ in_use (ext (snd (get_db pg_lib g consumer w))) = in_use (ext w1) ∖ {[session]}
    /\ session ∉ in_use (ext (snd (get_db pg_lib g consumer w))).
Proof.
  intros session.
  unfold get_db, with_, try_finally, perform. cbn.
  destruct (consumer _ _) as [o w1] eqn:Hc.
  eexists _, o, w1. split; [reflexivity|]. split; [exact Hc|].
  cbn. rewrite <- app_assoc. cbn.
  split; [reflexivity|]. split; [reflexivity|].
  split.
  - apply set_eq. intros x. rewrite !elem_of_difference. tauto.
  - rewrite !elem_of_difference, elem_of_singleton. tauto.
Qed.

Lemma get_db_closes_the_session_on_every_exit_witness :
  5 ∉ in_use (ext (snd (get_db pg_lib Sample.globals0 Sample.failing_handler
                          Sample.world0))).
Proof.
  destruct (get_db_closes_the_session_on_every_exit
              Sample.globals0 Sample.failing_handler Sample.world0)
    as (w0 & o & w1 & _ & _ & _ & _ & _ & Hfree).
  exact Hfree.
Defined.

(** The same run, evaluated: the handler took a connection of the pool,
    failed, and the pool has it back; the exception is the handler's. *)
Example get_db_failing_handler_run :
  let run := get_db pg_lib Sample.globals0 Sample.failing_handler Sample.world0 in
  fst run = Raised (Error "HTTPException" "not found")
  /\ history (snd run) =
     [Entry (sessionmaker_call 3) (inr 5);
      Entry (AsyncSession_execute 5 "SELECT 1") (inr []);
      Entry (AsyncSession_close 5) (inr tt);
      Entry (AsyncSession_aexit 5 (Some (Error "HTTPException" "not found"))) (inr tt)]
  /\ in_use (ext (snd run)) = ∅.
Proof. vm_compute. repeat split; reflexivity. Qed.

(** * Further properties *)

Ltac in_block :=
  match goal with
  | |- (exists e, [Entry _ (inl ?e')] = _) \/ _ => left; exists e'; reflexivity
  | |- _ \/ (exists conn body r, Entry _ (inr ?cn) :: ?l = _ /\ _) =>
      right;
      let b := eval cbn in (removelast l) in
      exists cn, b; eexists; split; [reflexivity|]
  end.

(** The cases of a membership in an explicit list of log records that all
    differ from the record looked for. *)
Ltac log_cases Hin :=
  apply list_elem_of_In in Hin; cbn -[String.append] in Hin;
  repeat (destruct Hin as [Hin | Hin];
          [first [discriminate Hin | cbn in Hin; discriminate Hin | idtac]|]);
  try contradiction.

(** ** The import *)

Lemma module_body_missing {S : Type} (lib : forall X : Type, call X -> S -> (exn + X) * S)
    (w : world S) :
  missing_names (environ w) <> [] ->
  module_body lib w =
  (Raised (ValueError ("Missing required database environment variables: "
                       +:+ join ", " (missing_names (environ w)))), w).
Proof.
  intros Hm. unfold module_body, bind, os_environ, lift.
  rewrite validate_spec, missing_vars_spec.
  destruct (missing_names (environ w)); [congruence | reflexivity].
Qed.

(** X1.  The configuration error depends only on which of the five
    variables are missing: two environments in which the same variables are
    unset or empty give the same [ValueError], whatever the values of the
    others (the password among them) and whatever the library; and neither
    import makes a request. *)
Theorem configuration_error_ignores_the_values
    {S S' : Type} (lib : forall X : Type, call X -> S -> (exn + X) * S)
    (lib' : forall X : Type, call X -> S' -> (exn + X) * S')
    (w : world S) (w' : world S') :
  (forall name, name ∈ required ->
     is_missing (environ w) name = is_missing (environ w') name) ->
  missing_names (environ w) <> [] ->
  (exists msg, fst (module_body lib w) = Raised (ValueError msg)
               /\ fst (module_body lib' w') = Raised (ValueError msg))
  /\ made (module_body lib) w = [] /\ made (module_body lib') w' = [].
Proof.
  intros Hsame Hm.
  assert (Hn : missing_names (environ w') = missing_names (environ w)).
  { unfold missing_names. apply filter_ext_in. intros n Hin. symmetry.
    apply Hsame. now apply list_elem_of_In. }
  unfold made. rewrite (module_body_missing lib w) by exact Hm.
  rewrite (module_body_missing lib' w') by (rewrite Hn; exact Hm).
  rewrite Hn. cbn [fst snd]. rewrite !drop_all. eauto.
Qed.

Lemma configuration_error_ignores_the_values_witness :
  ((forall name, name ∈ required ->
      is_missing Sample.environ2 name = is_missing Scenario.environ2b name)
   /\ missing_names Sample.environ2 <> [])
  /\ ((exists msg,
         fst (module_body pg_lib Sample.world2) = Raised (ValueError msg)
         /\ fst (module_body Sample.interrupted Scenario.world2b) = Raised (ValueError msg))
      /\ made (module_body pg_lib) Sample.world2 = []
      /\ made (module_body Sample.interrupted) Scenario.world2b = []).
Proof.
  assert (Hsame : forall name, name ∈ required ->
            is_missing Sample.environ2 name = is_missing Scenario.environ2b name).
  { intros name Hin. cases_of Hin ltac:(vm_compute; reflexivity). }
  assert (Hm : missing_names Sample.environ2 <> []) by (vm_compute; discriminate).
  split; [split; assumption|].
  exact (configuration_error_ignores_the_values pg_lib Sample.interrupted
           Sample.world2 Scenario.world2b Hsame Hm).
Defined.

(** X2.  The import never calls the library with an incomplete
    configuration: as soon as it made one request, each of the five
    variables is set to a string that is not empty. *)
Theorem no_request_without_a_complete_configuration
    {S : Type} (lib : forall X : Type, call X -> S -> (exn + X) * S) (w : world S) :
  made (module_body lib) w <> [] ->
  forall name, name ∈ required ->
    exists v, environ w !! name = Some v /\ v <> "".
Proof.
  intros Hmade name Hreq.
  destruct (missing_names (environ w)) as [|m ms] eqn:Hm.
  - assert (Hin : ~ In name (missing_names (environ w))) by (rewrite Hm; auto).
    unfold missing_names in Hin. rewrite filter_In in Hin.
    unfold is_missing in Hin.
    destruct (environ w !! name) as [v|].
    + exists v. split; [reflexivity|]. intros ->. apply Hin.
      split; [now apply list_elem_of_In | reflexivity].
    + exfalso. apply Hin. split; [now apply list_elem_of_In | reflexivity].
  - exfalso. apply Hmade. unfold made.
    rewrite module_body_missing by (rewrite Hm; discriminate).
    cbn. apply drop_all.
Qed.

Lemma no_request_without_a_complete_configuration_witness :
  made (module_body pg_lib) Sample.world0 <> []
  /\ forall name, name ∈ required ->
       exists v, environ Sample.world0 !! name = Some v /\ v <> "".
Proof.
  assert (H : made (module_body pg_lib) Sample.world0 <> [])
    by (vm_compute; discriminate).
  split; [exact H|].
  exact (no_request_without_a_complete_configuration pg_lib Sample.world0 H).
Defined.

(** X3.  Whatever fails in the existence check, as long as it is an
    [Exception], the set-up goes on: the requests of the check are followed
    by the creation of the async engine, with the async URL, the [echo] of
    the environment, [pool_size=10] and [max_overflow=20]. *)
Theorem engine_is_created_after_the_check
    {S : Type} (lib : forall X : Type, call X -> S -> (exn + X) * S)
    (c : settings) (w : world S) :
  (forall en e, en ∈ made (_ensure_database_exists lib c) w ->
                failure en = Some e -> isinstance_Exception e = true) ->
  exists r rest,
    made (module_setup lib c) w =
    (made (_ensure_database_exists lib c) w
     ++ Entry (create_async_engine (DATABASE_URL c) (echo (environ w)) 10 20) r
        :: rest)%list.
Proof.
  unfold made, module_setup, make_engine, _ensure_database_exists, check_and_create,
    try_except, with_, bind, os_environ, perform, emit, ret.
  cbn -[String.append DATABASE_URL DATABASE_URL_SYNC echo].
  destruct (String.eqb _ "1"); cbn -[String.append DATABASE_URL DATABASE_URL_SYNC echo].
  all: exec lib; rewrite ?drop_all; intros H; try only_exceptions H.
  all: eexists _, _; cbn; reflexivity.
Qed.

Lemma engine_is_created_after_the_check_witness :
  (forall en e,
     en ∈ made (_ensure_database_exists pg_lib (read_settings Sample.environ1))
            Sample.world1 ->
     failure en = Some e -> isinstance_Exception e = true)
  /\ exists r rest,
       made (module_setup pg_lib (read_settings Sample.environ1)) Sample.world1 =
       (made (_ensure_database_exists pg_lib (read_settings Sample.environ1))
          Sample.world1
        ++ Entry (create_async_engine (DATABASE_URL (read_settings Sample.environ1))
                    (echo (environ Sample.world1)) 10 20) r
           :: rest)%list.
Proof.
  assert (Hex : forall en e,
             en ∈ made (_ensure_database_exists pg_lib (read_settings Sample.environ1))
                    Sample.world1 ->
             failure en = Some e -> isinstance_Exception e = true).
  { intros en e Hin Hf.
    let l := eval vm_compute in
      (made (_ensure_database_exists pg_lib (read_settings Sample.environ1))
         Sample.world1) in
    change (en ∈ l) in Hin.
    cases_of Hin ltac:(cbn in Hf; first [discriminate Hf | injection Hf as <-; reflexivity]). }
  split; [exact Hex|].
  exact (engine_is_created_after_the_check pg_lib (read_settings Sample.environ1)
           Sample.world1 Hex).
Defined.

(** X4.  A set-up that returns has ended with the three constructors, in
    the order async engine, session factory bound to that engine with
    [expire_on_commit=False], sync engine with the sync URL, and its globals
    are their answers; and nothing catches a constructor that fails: the
    set-up, so the import, raises its exception. *)
Theorem constructors_build_the_globals_or_abort
    {S : Type} (lib : forall X : Type, call X -> S -> (exn + X) * S)
    (c : settings) (w : world S) :
  (forall g, fst (module_setup lib c w) = Return g ->
     config g = c
     /\ made (module_setup lib c) w =
        (made (_ensure_database_exists lib c) w
         ++ [Entry (create_async_engine (DATABASE_URL c) (echo (environ w)) 10 20)
               (inr (engine g));
             Entry (sessionmaker (engine g) false) (inr (async_session_local g));
             Entry (create_engine (DATABASE_URL_SYNC c) None) (inr (sync_engine g))])%list)
  /\ (forall en e, en ∈ made (module_setup lib c) w ->
        is_constructor en = true -> failure en = Some e ->
        fst (module_setup lib c w) = Raised e).
Proof.
  unfold made, module_setup, make_engine, _ensure_database_exists, check_and_create,
    try_except, with_, bind, os_environ, perform, emit, ret.
  cbn -[String.append DATABASE_URL DATABASE_URL_SYNC echo].
  destruct (String.eqb _ "1"); cbn -[String.append DATABASE_URL DATABASE_URL_SYNC echo].
  all: exec lib; rewrite ?drop_all.
  all: split; [intros g Hg; try discriminate Hg; injection Hg as <-; cbn; auto|].
  all: intros en e' Hin Hc Hf.
  all: cases_of Hin ltac:(cbn in Hc, Hf; first [discriminate Hc | discriminate Hf
                                               | injection Hf as <-; reflexivity]).
Qed.

(** ** The existence check *)

(** X5.  The administrative connection never stays open: in every run of
    the check, a connection that was opened is the one the last request of
    the run releases, and a connection is released only if the run opened
    it. *)
Theorem admin_connection_is_always_released
    {S : Type} (lib : forall X : Type, call X -> S -> (exn + X) * S)
    (c : settings) (w : world S) :
  (forall en conn, en ∈ made (_ensure_database_exists lib c) w ->
     connected en = Some conn ->
     exists en', last (made (_ensure_database_exists lib c) w) = Some en'
                 /\ released en' = Some conn)
  /\ (forall en conn, en ∈ made (_ensure_database_exists lib c) w ->
        released en = Some conn ->
        exists en0, en0 ∈ made (_ensure_database_exists lib c) w
                    /\ connected en0 = Some conn).
Proof.
  unfold made, _ensure_database_exists, check_and_create, try_except, with_, bind,
    os_environ, perform, emit.
  cbn -[String.append].
  destruct (String.eqb _ "1"); cbn -[String.append].
  2:{ rewrite drop_all. split; intros; exfalso; eapply not_elem_of_nil; eauto. }
  exec lib.
  all: split; intros en conn Hin Hc.
  all: cases_of Hin ltac:(cbn in Hc; first [discriminate Hc | injection Hc as <-]).
  all: try (eexists; split; [reflexivity | reflexivity]).
  all: match goal with
       | |- context [@Entry ?X (Engine_connect ?h) (inr ?cn)] =>
           exists (@Entry X (Engine_connect h) (inr cn))
       end; split; [mem | reflexivity].
Qed.

(** X6.  Whatever the library answers, an exception that leaves
    [_ensure_database_exists] is not an [Exception]: the function never
    raises what [except Exception] catches. *)
Theorem ensure_database_exists_raises_no_Exception
    {S : Type} (lib : forall X : Type, call X -> S -> (exn + X) * S)
    (c : settings) (w : world S) (e : exn) :
  fst (_ensure_database_exists lib c w) = Raised e ->
  isinstance_Exception e = false
  /\ exists en, en ∈ made (_ensure_database_exists lib c) w /\ failure en = Some e.
Proof.
  unfold made, _ensure_database_exists, check_and_create, try_except, with_, bind,
    os_environ, perform, emit.
  cbn -[String.append].
  destruct (String.eqb _ "1"); cbn -[String.append]; [|discriminate].
  exec lib; intros H; try discriminate H; injection H as <-.
  all: try (exfalso; congruence).
  all: split; [reflexivity|].
  all: match goal with
       | I : isinstance_Exception ?x = false |- _ =>
           match goal with
           | |- context [@Entry ?X ?c (inl x)] => exists (@Entry X c (inl x))
           end
       end; split; [mem | reflexivity].
Qed.

Lemma ensure_database_exists_raises_no_Exception_witness :
  fst (_ensure_database_exists Sample.interrupted (read_settings Sample.environ0)
         (World Sample.environ0 [] [] tt)) = Raised (BaseOnly "KeyboardInterrupt")
  /\ (isinstance_Exception (BaseOnly "KeyboardInterrupt") = false
      /\ exists en,
           en ∈ made (_ensure_database_exists Sample.interrupted
                        (read_settings Sample.environ0))
                  (World Sample.environ0 [] [] tt)
           /\ failure en = Some (BaseOnly "KeyboardInterrupt")).
Proof.
  split; [vm_compute; reflexivity|].
  apply (ensure_database_exists_raises_no_Exception Sample.interrupted
           (read_settings Sample.environ0) (World Sample.environ0 [] [] tt)).
  vm_compute; reflexivity.
Defined.

(** ** Schema operations, over any library *)

(** X7.  Whatever the library answers, [init_db] and [recreate_db] work
    inside one [engine.begin()] block: when the block was entered, its exit
    on the same connection is the last request; the requests between are
    the planned ones in order ([create_all] with [checkfirst=True] for
    [init_db]; the drop of the schema, its creation and [create_all] for
    [recreate_db], none depending on the configuration) and stop at the
    first that fails; the exit is told that failure, and is told [None], so
    asked to commit, only after the whole plan went through. *)
Theorem schema_operations_run_in_one_block
    {S : Type} (lib : forall X : Type, call X -> S -> (exn + X) * S)
    (Base_metadata : list string) (g : module_globals) (w : world S) :
  in_one_block (engine g)
    (fun conn => [req (AsyncConnection_run_sync_create_all conn Base_metadata (Some true))])
    (init_db lib Base_metadata g) w
  /\ in_one_block (engine g)
       (fun conn => [req (AsyncConnection_execute conn "DROP SCHEMA public CASCADE;");
                     req (AsyncConnection_execute conn "CREATE SCHEMA public;");
                     req (AsyncConnection_run_sync_create_all conn Base_metadata None)])
       (recreate_db lib Base_metadata g) w.
Proof.
  split.
  - unfold in_one_block, made, init_db, try_except, with_, bind, perform, emit, raise.
    cbn -[String.append]. exec lib.
    all: in_block.
    all: split; [eexists; cbn; reflexivity|].
    all: split; [cbn; first [reflexivity | discriminate]|].
    all: intros en Hin Hf; cases_of Hin ltac:(cbn in Hf; first [congruence | reflexivity]).
  - unfold in_one_block, made, recreate_db, try_except, with_, bind, perform, emit, raise.
    cbn -[String.append]. exec lib.
    all: in_block.
    all: split; [eexists; cbn; reflexivity|].
    all: split; [cbn; first [reflexivity | discriminate]|].
    all: intros en Hin Hf; cases_of Hin ltac:(cbn in Hf; first [congruence | reflexivity]).
Qed.

(** X8.  [init_db] logs its success record exactly when it returns: the
    record comes after the block, so never after a failed statement or a
    failed commit. *)
Theorem init_db_logs_success_iff_it_returns
    {S : Type} (lib : forall X : Type, call X -> S -> (exn + X) * S)
    (Base_metadata : list string) (g : module_globals) (w : world S) :
  LogRecord INFO "Database tables checked/created successfully." None
    ∈ logged (init_db lib Base_metadata g) w
  <-> fst (init_db lib Base_metadata g w) = Return tt.
Proof.
  unfold logged, init_db, try_except, with_, bind, perform, emit, raise.
  cbn -[String.append]. exec lib.
  all: split; [intros Hin | intros Hr; try discriminate Hr].
  all: try reflexivity.
  all: try solve [log_cases Hin].
  all: try solve [mem].
Qed.

(** X9.  In [recreate_db] the closing warning is logged exactly when the
    function returns, but the record "All tables recreated successfully."
    is logged inside the block, exactly when [create_all] answered: it is
    in the log also when the commit then fails and the function raises. *)
Theorem recreate_db_log_records
    {S : Type} (lib : forall X : Type, call X -> S -> (exn + X) * S)
    (Base_metadata : list string) (g : module_globals) (w : world S) :
  (LogRecord WARNING
     ("!!! DANGEROUS OPERATION COMPLETE for " +:+ fmt (DB_NAME (config g))
      +:+ " at " +:+ fmt (DB_HOST (config g)) +:+ ":" +:+ fmt (DB_PORT (config g))
      +:+ " !!!") None
     ∈ logged (recreate_db lib Base_metadata g) w
   <-> fst (recreate_db lib Base_metadata g w) = Return tt)
  /\ (LogRecord INFO "All tables recreated successfully." None
        ∈ logged (recreate_db lib Base_metadata g) w
      <-> exists en, en ∈ made (recreate_db lib Base_metadata g) w
                     /\ created_all en = true).
Proof.
  unfold logged, made, recreate_db, try_except, with_, bind, perform, emit, raise.
  cbn -[String.append]. exec lib.
  all: split; split.
  all: try solve [intros Hin; first [reflexivity | log_cases Hin]].
  all: try solve [intros Hr; first [discriminate Hr | mem]].
  all: try solve [intros Hin;
                  match goal with
                  | |- context [@Entry ?X (AsyncConnection_run_sync_create_all ?c ?m ?k)
                                  (inr ?x)] =>
                      exists (@Entry X (AsyncConnection_run_sync_create_all c m k) (inr x));
                      split; [mem | reflexivity]
                  end].
  all: try solve [intros (en & Hin & Hc);
                  cases_of Hin ltac:(cbn in Hc; discriminate Hc)].
Qed.

(** A run with a commit that fails: the success record is in the log, the
    error follows it, the function raises and the tables are as before. *)
Example recreate_db_commit_fails :
  let run := recreate_db Scenario.commit_fails Sample.metadata0 Sample.globals0
               Sample.world0 in
  fst run = Raised (Error "OperationalError" "server closed the connection unexpectedly")
  /\ map message (logged (recreate_db Scenario.commit_fails Sample.metadata0
                            Sample.globals0) Sample.world0) =
     ["!!! DANGEROUS OPERATION: Dropping and recreating all tables in meet at db:5432 !!!";
      "Dropping public schema with CASCADE...";
      "Public schema dropped.";
      "Recreating public schema...";
      "Public schema recreated.";
      "Recreating all tables based on models...";
      "All tables recreated successfully.";
      "Error recreating database tables: server closed the connection unexpectedly"]
  /\ schemas (ext (snd run)) = schemas Sample.server0.
Proof. vm_compute. repeat split; reflexivity. Qed.

(** ** Session provider, over any library *)

(** X10.  When the session cannot be created, nothing else happens and the
    error is raised.  Otherwise [close] and the exit of [async with] are
    asked in this order after the consuming block, and the outcome is
    decided from the end: an error of the exit wins, then an error of
    [close] (it replaces even a normal outcome of the block), and only when
    both answered is the outcome the one of the block. *)
Theorem get_db_outcome
    {S A : Type} (lib : forall X : Type, call X -> S -> (exn + X) * S)
    (g : module_globals) (consumer : handle -> M S A) (w : world S) :
  (forall e w0,
     perform lib (sessionmaker_call (async_session_local g)) w = (Raised e, w0) ->
     get_db lib g consumer w = (Raised e, w0))
  /\ (forall session w0 o w1,
        perform lib (sessionmaker_call (async_session_local g)) w = (Return session, w0) ->
        consumer session w0 = (o, w1) ->
        exists r r',
          history (snd (get_db lib g consumer w)) =
            (history w1 ++
             [Entry (AsyncSession_close session) r;
              Entry (AsyncSession_aexit session
                       (match r with inl e => Some e | inr _ => exc_of o end)) r'])%list
          /\ fst (get_db lib g consumer w) =
             match r', r with
             | inl e', _ => Raised e'
             | inr _, inl e => Raised e
             | inr _, inr _ => o
             end).
Proof.
  split.
  - intros e w0 Hopen. unfold get_db, with_. now rewrite Hopen.
  - intros session w0 o w1 Hopen Hc. unfold get_db, with_, try_finally.
    rewrite Hopen, Hc. unfold perform.
    destruct (lib _ (AsyncSession_close session) (ext w1)) as [[e|[]] s1]; cbn.
    + destruct (lib _ (AsyncSession_aexit session (Some e)) s1) as [[e'|[]] s2]; cbn;
        rewrite <- app_assoc; eexists (inl e), _; split; reflexivity.
    + destruct (lib _ (AsyncSession_aexit session (exc_of o)) s1) as [[e'|[]] s2]; cbn;
        rewrite <- app_assoc; eexists (inr tt), _; split; reflexivity.
Qed.

(** ** More on the reference model *)

(** A library that changes some part [P] of its state only at a commit, and
    not when a request fails, has it unchanged after a schema operation
    that did not return. *)
Section Atomic.

Context {S T : Type} (lib : forall X : Type, call X -> S -> (exn + X) * S) (P : S -> T).

Hypothesis only_commit :
  forall X (c : call X) s, is_commit c = false -> P (snd (lib X c s)) = P s.

Hypothesis failed_unchanged :
  forall X (c : call X) s e, fst (lib X c s) = inl e -> P (snd (lib X c s)) = P s.

Ltac steps :=
  repeat match goal with
  | E : lib ?X ?c ?s = (inl ?e, ?s') |- _ =>
      let Hq := fresh "Hq" in
      pose proof (failed_unchanged X c s e) as Hq; rewrite E in Hq;
      specialize (Hq eq_refl); cbn [snd] in Hq; clear E
  | E : lib ?X ?c ?s = (inr ?x, ?s') |- _ =>
      let Hq := fresh "Hq" in
      pose proof (only_commit X c s eq_refl) as Hq; rewrite E in Hq;
      cbn [snd] in Hq; clear E
  end.

Lemma failed_schema_operation_keeps md g w :
  (fst (init_db lib md g w) <> Return tt ->
   P (ext (snd (init_db lib md g w))) = P (ext w))
  /\ (fst (recreate_db lib md g w) <> Return tt ->
      P (ext (snd (recreate_db lib md g w))) = P (ext w)).
Proof.
  split.
  - unfold init_db, try_except, with_, bind, perform, emit, raise.
    cbn -[String.append]. exec lib; intros Hne; try congruence; steps; congruence.
  - unfold recreate_db, try_except, with_, bind, perform, emit, raise.
    cbn -[String.append]. exec lib; intros Hne; try congruence; steps; congruence.
Qed.

End Atomic.

Ltac branches :=
  repeat match goal with
         | |- context [match ?x with _ => _ end] => destruct x; cbn
         end.

Lemma pg_lib_failed_unchanged X (c : call X) (s : pg) e :
  fst (pg_lib X c s) = inl e -> snd (pg_lib X c s) = s.
Proof.
  destruct c; cbn; try discriminate; try reflexivity.
  - unfold admin_execute. branches; try discriminate; reflexivity.
  - unfold in_transaction. branches; try discriminate; reflexivity.
  - unfold in_transaction. branches; try discriminate; reflexivity.
  - unfold begin_exit. branches; try discriminate; reflexivity.
  - unfold session_execute. branches; try discriminate; reflexivity.
Qed.

Lemma pg_lib_only_commit X (c : call X) (s : pg) :
  is_commit c = false -> schemas (snd (pg_lib X c s)) = schemas s.
Proof.
  destruct c; cbn; try discriminate; try reflexivity.
  - intros _. unfold admin_execute. branches; reflexivity.
  - intros _. unfold in_transaction. branches; reflexivity.
  - intros _. unfold in_transaction. branches; reflexivity.
  - destruct exc; [intros _|discriminate]. unfold begin_exit.
    destruct (transactions s !! conn); reflexivity.
  - intros _. unfold session_execute. branches; reflexivity.
Qed.

(** X11.  On the reference server a schema operation that does not return
    leaves every schema of the database, tables and rows, as it was: the
    exception is handed to the exit of the block, which rolls back. *)
Theorem failed_schema_operation_rolls_back
    (Base_metadata : list string) (g : module_globals) (w : world pg) :
  (fst (init_db pg_lib Base_metadata g w) <> Return tt ->
   schemas (ext (snd (init_db pg_lib Base_metadata g w))) = schemas (ext w))
  /\ (fst (recreate_db pg_lib Base_metadata g w) <> Return tt ->
      schemas (ext (snd (recreate_db pg_lib Base_metadata g w))) = schemas (ext w)).
Proof.
  apply failed_schema_operation_keeps.
  - apply pg_lib_only_commit.
  - intros X c s e H. now rewrite pg_lib_failed_unchanged with (e := e).
Qed.

(** Without a default schema both operations raise and change nothing. *)
Example schema_operations_without_default_schema :
  fst (init_db pg_lib Sample.metadata0 Sample.globals0 Scenario.world6) =
    Raised (Error "ProgrammingError" "no schema has been selected to create in")
  /\ fst (recreate_db pg_lib Sample.metadata0 Sample.globals0 Scenario.world6) =
     Raised (Error "ProgrammingError" "schema does not exist")
  /\ schemas (ext (snd (recreate_db pg_lib Sample.metadata0 Sample.globals0
                          Scenario.world6))) = schemas Scenario.server2.
Proof. vm_compute. repeat split; reflexivity. Qed.



(** X13.  On the reference server [init_db] right after a [recreate_db]
    that returned returns too and changes nothing: [recreate_db] leaves
    what [init_db] would create. *)
Theorem init_db_after_recreate_db_changes_nothing
    (Base_metadata : list string) (g : module_globals) (w : world pg) :
  fst (recreate_db pg_lib Base_metadata g w) = Return tt ->
  let w1 := snd (recreate_db pg_lib Base_metadata g w) in
  fst (init_db pg_lib Base_metadata g w1) = Return tt
  /\ schemas (ext (snd (init_db pg_lib Base_metadata g w1))) = schemas (ext w1).
Proof.
  intros H w1.
  destruct (recreate_db_final_schemas Base_metadata g w H) as (tables & Hs & Hl).
  fold w1 in Hs.
  assert (Hp : schemas (ext w1) !! "public" = Some tables)
    by (rewrite Hs; apply lookup_insert_eq).
  destruct (create_all_checkfirst Base_metadata (schemas (ext w1)) tables Hp)
    as (new & Hc & Hn).
  assert (new = tables) as ->.
  { apply map_eq. intros t. rewrite Hn, Hl.
    destruct (decide (t ∈ Base_metadata)); reflexivity. }
  rewrite insert_id in Hc by exact Hp.
  edestruct (init_db_run pg_lib Base_metadata g w1) as [Hr He].
  - reflexivity.
  - cbn. apply in_transaction_ok with (db := schemas (ext w1)); [|exact Hc].
    cbn. apply lookup_insert_eq.
  - cbn. unfold begin_exit. cbn. rewrite lookup_insert_eq. reflexivity.
  - split; [exact Hr|]. rewrite He. reflexivity.
Qed.

Lemma init_db_after_recreate_db_changes_nothing_witness :
  let w1 := snd (recreate_db pg_lib Sample.metadata0 Sample.globals0 Sample.world0) in
  fst (recreate_db pg_lib Sample.metadata0 Sample.globals0 Sample.world0) = Return tt
  /\ (fst (init_db pg_lib Sample.metadata0 Sample.globals0 w1) = Return tt
      /\ schemas (ext (snd (init_db pg_lib Sample.metadata0 Sample.globals0 w1)))
         = schemas (ext w1)).
Proof.
  intros w1.
  assert (H : fst (recreate_db pg_lib Sample.metadata0 Sample.globals0 Sample.world0)
              = Return tt) by (vm_compute; reflexivity).
  split; [exact H|].
  exact (init_db_after_recreate_db_changes_nothing Sample.metadata0 Sample.globals0
           Sample.world0 H).
Defined.




